(** * Samsung2 maker-note tag registry of exiv2 (src/samsungmn_int.cpp)

    Shallow embedding of the tag tables [Samsung2MakerNote::tagInfo_] and
    [Samsung2MakerNote::tagInfoPw_], of the lookup tables they bind, and of the
    value formatters defined in the file.  A formatter writes to a
    caller-supplied [std::ostream]; the stream is modelled as the text written
    so far, and [os << x] appends the rendering of [x]. *)

From Stdlib Require Import ZArith Ascii String Sorting.Sorted.
From stdpp Require Import base list strings pretty.

Local Open Scope string_scope.
Local Open Scope Z_scope.

(** ** Types of the exiv2 core used by the file (types.hpp, tags.hpp) *)

(** [Exiv2::TypeId]: the binary type kinds of an Exif field. *)
Inductive TypeId : Type :=
| unsignedByte | asciiString | unsignedShort | unsignedLong | unsignedRational
| signedByte | undefined | signedShort | signedLong | signedRational
| tiffFloat | tiffDouble | tiffIfd.

#[global] Instance TypeId_eq_dec : EqDecision TypeId.
Proof. solve_decision. Defined.

(** [Exiv2::IfdId], restricted to a few directories besides the two of this file. *)
Inductive IfdId : Type :=
| ifdIdNotSet | ifd0Id | exifId | gpsId | samsung2Id | samsungPvId | samsungPwId.

#[global] Instance IfdId_eq_dec : EqDecision IfdId.
Proof. solve_decision. Defined.

(** [Exiv2::SectionId], restricted likewise. *)
Inductive SectionId : Type :=
| sectionIdNotSet | imgStruct | otherTags | makerTags.

#[global] Instance SectionId_eq_dec : EqDecision SectionId.
Proof. solve_decision. Defined.

(** The output stream: the text written to it so far. *)
Definition ostream := string.

(** [_()] of i18n.h.  In a build without NLS it is the identity; with NLS it
    is a catalogue lookup that the spec leaves out of scope. *)
Definition tr_ (s : string) : string := s.

(** ** The decoded value *)

(** Modelled from the spec: the [Exiv2::Value] class (value.hpp), which is
    outside this file and which the formatters only read: its element count,
    its runtime type tag, its integer reading of element [n] ([toInt64(n)],
    an [int64_t]), the text the stream writes for [toFloat()], and the
    default raw text [os << value] (that is [Value::write]). *)
Record Value : Type := mkValue {
  typeId : TypeId;
  count : nat;
  toInt64 : nat -> Z;
  toFloat_str : string;
  write_str : string
}.

(** [os << value] *)
Definition out_value (os : ostream) (v : Value) : ostream := os +:+ write_str v.
(** [os << s] for a C string or [std::string] *)
Definition out_str (os : ostream) (s : string) : ostream := os +:+ s.
(** [os << i] for an [int64_t]: decimal, with a minus sign when negative. *)
Definition out_int64 (os : ostream) (i : Z) : ostream := os +:+ pretty i.

(** Two's complement wrap-around of [int64_t] arithmetic. *)
Definition wrap_int64 (z : Z) : Z := (z + 2 ^ 63) mod 2 ^ 64 - 2 ^ 63.
Definition int64_sub (a b : Z) : Z := wrap_int64 (a - b).

(** [stringFormat("{:.1f}", x)] for the real number [n / d] ([d > 0]):
    scale by ten, round to nearest with ties to even, print the integer part,
    a point and one digit; the sign is that of [x].  The source formats the
    double [length / 10.0]; for an integer [length] below [2^53] the double is
    within half an ulp of [length / 10], so both print the same digits. *)
Definition round_div (n d : Z) : Z :=
  let q := n / d in
  let r := n mod d in
  if 2 * r <? d then q
  else if d <? 2 * r then q + 1
  else if Z.even q then q else q + 1.

Definition format_fixed1 (n d : Z) : string :=
  let t := Z.abs (round_div (n * 10) d) in
  (if n <? 0 then "-" else "") +:+ pretty (t / 10) +:+ "." +:+ pretty (t mod 10).

(** ** Lookup tables *)

(** [Exiv2::TagDetails]: a (code, label) pair. *)
Record TagDetails : Type := mkTagDetails { val_ : Z; label_ : string }.

(** LensType, tag 0xa003 *)
Definition samsung2LensType : list TagDetails := [
  mkTagDetails 0 "Built-in";
  mkTagDetails 1 "Samsung NX 30mm F2 Pancake";
  mkTagDetails 2 "Samsung NX 18-55mm F3.5-5.6 OIS";
  mkTagDetails 3 "Samsung NX 50-200mm F4-5.6 ED OIS";
  mkTagDetails 4 "Samsung NX 20-50mm F3.5-5.6 ED";
  mkTagDetails 5 "Samsung NX 20mm F2.8 Pancake";
  mkTagDetails 6 "Samsung NX 18-200mm F3.5-6.3 ED OIS";
  mkTagDetails 7 "Samsung NX 60mm F2.8 Macro ED OIS SSA";
  mkTagDetails 8 "Samsung NX 16mm F2.4 Pancake";
  mkTagDetails 9 "Samsung NX 85mm F1.4 ED SSA";
  mkTagDetails 10 "Samsung NX 45mm F1.8";
  mkTagDetails 11 "Samsung NX 45mm F1.8 2D/3D";
  mkTagDetails 12 "Samsung NX 12-24mm F4-5.6 ED";
  mkTagDetails 13 "Samsung NX 16-50mm F2-2.8 S ED OIS";
  mkTagDetails 14 "Samsung NX 10mm F3.5 Fisheye";
  mkTagDetails 15 "Samsung NX 16-50mm F3.5-5.6 Power Zoom ED OIS";
  mkTagDetails 20 "Samsung NX 50-150mm F2.8 S ED OIS";
  mkTagDetails 21 "Samsung NX 300mm F2.8 ED OIS"
].

(** ColorSpace, tag 0xa011 *)
Definition samsung2ColorSpace : list TagDetails :=
  [mkTagDetails 0 "sRGB"; mkTagDetails 1 "Adobe RGB"].

(** SmartRange, tag 0xa012 *)
Definition samsung2SmartRange : list TagDetails :=
  [mkTagDetails 0 "Off"; mkTagDetails 1 "On"].

(** PictureWizard Mode *)
Definition samsungPwMode : list TagDetails := [
  mkTagDetails 0 "Standard"; mkTagDetails 1 "Vivid"; mkTagDetails 2 "Portrait";
  mkTagDetails 3 "Landscape"; mkTagDetails 4 "Forest"; mkTagDetails 5 "Retro";
  mkTagDetails 6 "Cool"; mkTagDetails 7 "Calm"; mkTagDetails 8 "Classic";
  mkTagDetails 9 "Custom1"; mkTagDetails 10 "Custom2"; mkTagDetails 11 "Custom3"
].

(** [Exiv2::find] on a [TagDetails] array: the first entry with the code. *)
Fixpoint find_details (td : list TagDetails) (x : Z) : option TagDetails :=
  match td with
  | [] => None
  | d :: rest => if val_ d =? x then Some d else find_details rest x
  end.

(** ** Formatters *)

(** Modelled from the spec: [printValue] of tags_int.cpp, the raw-print
    formatter, writes the value's default rendering. *)
Definition printValue (os : ostream) (value : Value) : ostream :=
  out_value os value.

(** Modelled from the spec: the generic lookup-table formatter
    [EXV_PRINT_TAG(array)] of tags_int.hpp, bound to a table and to the
    enumerated-integer type [ty] it expects (the type the descriptors that
    bind it declare).  Count 1 and type [ty]: the label of the entry whose
    code is the integer reading, or the raw integer; otherwise the value's
    default rendering. *)
Definition printTag (ty : TypeId) (td : list TagDetails)
    (os : ostream) (value : Value) : ostream :=
  if negb (Nat.eqb (count value) 1) || bool_decide (typeId value <> ty) then
    out_value os value
  else
    match find_details td (toInt64 value 0) with
    | Some d => out_str os (tr_ (label_ d))
    | None => out_int64 os (toInt64 value 0)
    end.

(** Print the camera temperature *)
Definition printCameraTemperature (os : ostream) (value : Value) : ostream :=
  if negb (Nat.eqb (count value) 1) || bool_decide (typeId value <> signedRational) then
    out_value os value
  else
    out_str (out_str os (toFloat_str value)) " C".

(** Print the 35mm focal length *)
Definition printFocalLength35 (os : ostream) (value : Value) : ostream :=
  if negb (Nat.eqb (count value) 1) || bool_decide (typeId value <> unsignedLong) then
    out_value os value
  else
    let length := toInt64 value 0 in
    if length =? 0 then out_str os (tr_ "Unknown")
    else out_str os (format_fixed1 length 10 +:+ " mm").

(** Print the PictureWizard Color tag value *)
Definition printPwColor (os : ostream) (value : Value) : ostream :=
  if negb (Nat.eqb (count value) 1) || bool_decide (typeId value <> unsignedShort) then
    out_value os value
  else if toInt64 value 0 =? 65535 then
    (* Special case where no color modification is done *)
    out_str os (tr_ "Neutral")
  else
    (* Output seems to represent Hue in degrees *)
    out_int64 os (toInt64 value 0).

(** Print the tag value minus 4 *)
Definition printValueMinus4 (os : ostream) (value : Value) : ostream :=
  if negb (Nat.eqb (count value) 1) || bool_decide (typeId value <> unsignedShort) then
    out_value os value
  else
    out_int64 os (int64_sub (toInt64 value 0) 4).

(** Formatters bound by the tables but defined in tags_int.cpp. *)
Inductive ExtFct : Type :=
| printExifVersion | print0x9204 | print0x829a | print0x829d.

(** The [printFct_] field of a descriptor, as a closed variant. *)
Inductive PrintFct : Type :=
| Fct_printValue
| Fct_printTag (ty : TypeId) (td : list TagDetails)
| Fct_printCameraTemperature
| Fct_printFocalLength35
| Fct_printPwColor
| Fct_printValueMinus4
| Fct_extern (e : ExtFct).

(** Invoking a descriptor's formatter.  The formatters of tags_int.cpp are not
    in this file; [ext_text e v] is the text formatter [e] writes for [v]. *)
Definition run_printFct (ext_text : ExtFct -> Value -> string) (f : PrintFct)
    (os : ostream) (value : Value) : ostream :=
  match f with
  | Fct_printValue => printValue os value
  | Fct_printTag ty td => printTag ty td os value
  | Fct_printCameraTemperature => printCameraTemperature os value
  | Fct_printFocalLength35 => printFocalLength35 os value
  | Fct_printPwColor => printPwColor os value
  | Fct_printValueMinus4 => printValueMinus4 os value
  | Fct_extern e => out_str os (ext_text e value)
  end.

(** [EXV_PRINT_TAG(array)] as bound by the descriptors, which all declare
    [unsignedShort]. *)
Definition EXV_PRINT_TAG (td : list TagDetails) : PrintFct :=
  Fct_printTag unsignedShort td.

(** ** Tag descriptors *)

(** [Exiv2::TagInfo] *)
Record TagInfo : Type := mkTagInfo {
  tag_ : Z;
  name_ : string;
  title_ : string;
  desc_ : string;
  ifdId_ : IfdId;
  sectionId_ : SectionId;
  typeId_ : TypeId;
  count_ : Z;
  printFct_ : PrintFct
}.

(** Samsung MakerNote Tag Info *)
Definition tagInfo_ : list TagInfo := [
  mkTagInfo 0x0001 "Version" "Version" "Makernote version" samsung2Id makerTags undefined (-1)
    (Fct_extern printExifVersion);
  mkTagInfo 0x0021 "PictureWizard" "Picture Wizard" "Picture wizard composite tag" samsung2Id
    makerTags unsignedShort (-1) Fct_printValue;
  mkTagInfo 0x0030 "LocalLocationName" "Local Location Name" "Local location name" samsung2Id
    makerTags asciiString (-1) Fct_printValue;
  mkTagInfo 0x0031 "LocationName" "Location Name" "Location name" samsung2Id makerTags
    asciiString (-1) Fct_printValue;
  mkTagInfo 0x0035 "Preview" "Pointer to a preview image" "Offset to an IFD containing a preview image"
    samsung2Id makerTags unsignedLong (-1) Fct_printValue;
  mkTagInfo 0x0043 "CameraTemperature" "Camera Temperature" "Camera temperature" samsung2Id
    makerTags signedRational (-1) Fct_printCameraTemperature;
  mkTagInfo 0xa001 "FirmwareName" "Firmware Name" "Firmware name" samsung2Id makerTags
    asciiString (-1) Fct_printValue;
  mkTagInfo 0xa003 "LensType" "Lens Type" "Lens type" samsung2Id makerTags unsignedShort (-1)
    (EXV_PRINT_TAG samsung2LensType);
  mkTagInfo 0xa004 "LensFirmware" "Lens Firmware" "Lens firmware" samsung2Id makerTags
    asciiString (-1) Fct_printValue;
  mkTagInfo 0xa010 "SensorAreas" "Sensor Areas" "Sensor areas" samsung2Id makerTags
    unsignedLong (-1) Fct_printValue;
  mkTagInfo 0xa011 "ColorSpace" "Color Space" "Color space" samsung2Id makerTags unsignedShort
    (-1) (EXV_PRINT_TAG samsung2ColorSpace);
  mkTagInfo 0xa012 "SmartRange" "Smart Range" "Smart range" samsung2Id makerTags unsignedShort
    (-1) (EXV_PRINT_TAG samsung2SmartRange);
  mkTagInfo 0xa013 "ExposureBiasValue" "Exposure Bias Value" "Exposure bias value" samsung2Id
    makerTags signedRational (-1) (Fct_extern print0x9204);
  mkTagInfo 0xa014 "ISO" "ISO" "ISO" samsung2Id makerTags unsignedLong (-1) Fct_printValue;
  mkTagInfo 0xa018 "ExposureTime" "Exposure Time" "Exposure time" samsung2Id makerTags
    unsignedRational (-1) (Fct_extern print0x829a);
  mkTagInfo 0xa019 "FNumber" "FNumber" "The F number." samsung2Id makerTags unsignedRational
    (-1) (Fct_extern print0x829d);
  mkTagInfo 0xa01a "FocalLengthIn35mmFormat" "Focal Length In 35mm Format" "Focal length in 35mm format"
    samsung2Id makerTags unsignedLong (-1) Fct_printFocalLength35;
  mkTagInfo 0xa020 "EncryptionKey" "Encryption Key" "Encryption key" samsung2Id makerTags
    unsignedLong (-1) Fct_printValue;
  mkTagInfo 0xa021 "WB_RGGBLevelsUncorrected" "WB RGGB Levels Uncorrected"
    "WB RGGB levels not corrected for WB_RGGBLevelsBlack" samsung2Id makerTags unsignedLong
    (-1) Fct_printValue;
  mkTagInfo 0xa022 "WB_RGGBLevelsAuto" "WB RGGB Levels Auto" "WB RGGB levels auto" samsung2Id
    makerTags unsignedLong (-1) Fct_printValue;
  mkTagInfo 0xa023 "WB_RGGBLevelsIlluminator1" "WB RGGB Levels Illuminator1" "WB RGGB levels illuminator1"
    samsung2Id makerTags unsignedLong (-1) Fct_printValue;
  mkTagInfo 0xa024 "WB_RGGBLevelsIlluminator2" "WB RGGB Levels Illuminator2" "WB RGGB levels illuminator2"
    samsung2Id makerTags unsignedLong (-1) Fct_printValue;
  mkTagInfo 0xa028 "WB_RGGBLevelsBlack" "WB RGGB Levels Black" "WB RGGB levels black" samsung2Id
    makerTags signedLong (-1) Fct_printValue;
  mkTagInfo 0xa030 "ColorMatrix" "Color Matrix" "Color matrix" samsung2Id makerTags signedLong
    (-1) Fct_printValue;
  mkTagInfo 0xa031 "ColorMatrixSRGB" "Color Matrix sRGB" "Color matrix sRGB" samsung2Id
    makerTags signedLong (-1) Fct_printValue;
  mkTagInfo 0xa032 "ColorMatrixAdobeRGB" "Color Matrix Adobe RGB" "Color matrix Adobe RGB" samsung2Id
    makerTags signedLong (-1) Fct_printValue;
  mkTagInfo 0xa040 "ToneCurve1" "Tone Curve 1" "Tone curve 1" samsung2Id makerTags
    unsignedLong (-1) Fct_printValue;
  mkTagInfo 0xa041 "ToneCurve2" "Tone Curve 2" "Tone curve 2" samsung2Id makerTags
    unsignedLong (-1) Fct_printValue;
  mkTagInfo 0xa042 "ToneCurve3" "Tone Curve 3" "Tone curve 3" samsung2Id makerTags
    unsignedLong (-1) Fct_printValue;
  mkTagInfo 0xa043 "ToneCurve4" "Tone Curve 4" "Tone curve 4" samsung2Id makerTags
    unsignedLong (-1) Fct_printValue;
  (* End of list marker *)
  mkTagInfo 0xffff "(UnknownSamsung2MakerNoteTag)" "(UnknownSamsung2MakerNoteTag)"
    "Unknown Samsung2MakerNote tag" samsung2Id makerTags undefined (-1) Fct_printValue
].

Definition tagList : list TagInfo := tagInfo_.

(** Samsung PictureWizard Tag Info *)
Definition tagInfoPw_ : list TagInfo := [
  mkTagInfo 0x0000 "Mode" "Mode" "Mode" samsungPwId makerTags unsignedShort 1
    (EXV_PRINT_TAG samsungPwMode);
  mkTagInfo 0x0001 "Color" "Color" "Color" samsungPwId makerTags unsignedShort 1
    Fct_printPwColor;
  mkTagInfo 0x0002 "Saturation" "Saturation" "Saturation" samsungPwId makerTags unsignedShort
    1 Fct_printValueMinus4;
  mkTagInfo 0x0003 "Sharpness" "Sharpness" "Sharpness" samsungPwId makerTags unsignedShort 1
    Fct_printValueMinus4;
  mkTagInfo 0x0004 "Contrast" "Contrast" "Contrast" samsungPwId makerTags unsignedShort 1
    Fct_printValueMinus4;
  (* End of list marker *)
  mkTagInfo 0xffff "(UnknownSamsungPictureWizardTag)" "(UnknownSamsungPictureWizardTag)"
    "Unknown SamsungPictureWizard tag" samsungPwId makerTags unsignedShort 1 Fct_printValue
].

Definition tagListPw : list TagInfo := tagInfoPw_.

(** ** Lookup by directory and tag id *)

(** Modelled from the spec: the directory dispatch of tags_int.cpp
    ([tagList(IfdId)]), for the two directories of this file; any other
    directory has no registry here. *)
Definition registry_for (ifdId : IfdId) : option (list TagInfo) :=
  match ifdId with
  | samsung2Id => Some tagList
  | samsungPwId => Some tagListPw
  | _ => None
  end.

(** Modelled from the spec: the linear scan of [tagInfo(tag, ifdId)] in
    tags_int.cpp: it stops at the first entry whose id is the tag or is the
    end-of-list marker 0xffff, and returns that entry. *)
Fixpoint scan (ti : list TagInfo) (tag : Z) : option TagInfo :=
  match ti with
  | [] => None
  | t :: rest =>
      if (tag_ t =? 0xffff) || (tag_ t =? tag) then Some t else scan rest tag
  end.

Definition resolve (ifdId : IfdId) (tag : Z) : option TagInfo :=
  match registry_for ifdId with
  | Some ti => scan ti tag
  | None => None
  end.

(** * Properties *)

(** ** Registry lookup *)

Lemma scan_not_found (ti : list TagInfo) (tag : Z) :
  tag ∉ map tag_ ti -> scan ti tag = List.find (fun t => tag_ t =? 0xffff) ti.
Proof.
  induction ti as [|t rest IH]; intros Hnot; simpl in *; [done|].
  rewrite not_elem_of_cons in Hnot. destruct Hnot as [Hne Hrest].
  destruct (tag_ t =? 0xffff) eqn:Hs; simpl; [done|].
  rewrite (proj2 (Z.eqb_neq (tag_ t) tag)) by congruence. by apply IH.
Qed.

Lemma registry_for_cases (d : IfdId) (ti : list TagInfo) :
  registry_for d = Some ti ->
  (d = samsung2Id /\ ti = tagInfo_) \/ (d = samsungPwId /\ ti = tagInfoPw_).
Proof. destruct d; simpl; intros H; inversion H; auto. Qed.

(** C1: an id absent from the directory's table resolves to the table's last
    entry, the end-of-list marker with id 0xffff; the lookup returns an entry,
    and each table has exactly one entry with id 0xffff. *)
Theorem resolve_unknown_is_sentinel (d : IfdId) (ti : list TagInfo) (tag : Z) :
  registry_for d = Some ti -> tag ∉ map tag_ ti ->
  resolve d tag = last ti /\
  (exists s, last ti = Some s /\ tag_ s = 0xffff) /\
  length (List.filter (fun t => tag_ t =? 0xffff) ti) = 1%nat.
Proof.
  intros Hreg Hnot. unfold resolve. rewrite Hreg, scan_not_found by done.
  destruct (registry_for_cases d ti Hreg) as [[-> ->]|[-> ->]];
    split; [reflexivity| |reflexivity| ]; split; try reflexivity;
    eexists; split; reflexivity.
Qed.

Lemma resolve_unknown_is_sentinel_witness :
  registry_for samsung2Id = Some tagInfo_ /\ (0x0002 ∉ map tag_ tagInfo_) /\
  resolve samsung2Id 0x0002 = last tagInfo_.
Proof.
  assert (Hr : registry_for samsung2Id = Some tagInfo_) by reflexivity.
  assert (Hn : 0x0002 ∉ map tag_ tagInfo_) by (apply (bool_decide_unpack _); reflexivity).
  split; [exact Hr|]. split; [exact Hn|].
  exact (proj1 (resolve_unknown_is_sentinel samsung2Id tagInfo_ 0x0002 Hr Hn)).
Defined.

(** C2: every entry of either table other than the end-of-list marker is
    what the lookup of its own id in its directory returns. *)
Theorem resolve_registered (d : IfdId) (ti : list TagInfo) (t : TagInfo) :
  registry_for d = Some ti -> In t ti -> tag_ t <> 0xffff ->
  resolve d (tag_ t) = Some t.
Proof.
  intros Hreg Hin Hne. unfold resolve. rewrite Hreg.
  destruct (registry_for_cases d ti Hreg) as [[-> ->]|[-> ->]];
    simpl in Hin; repeat destruct Hin as [<-|Hin]; try contradiction;
    try reflexivity; simpl in Hne; congruence.
Qed.

Lemma resolve_registered_witness :
  resolve samsungPwId 0x0002 =
  Some (mkTagInfo 0x0002 "Saturation" "Saturation" "Saturation" samsungPwId makerTags
          unsignedShort 1 Fct_printValueMinus4).
Proof.
  apply (resolve_registered samsungPwId tagInfoPw_
           (mkTagInfo 0x0002 "Saturation" "Saturation" "Saturation" samsungPwId makerTags
              unsignedShort 1 Fct_printValueMinus4)).
  - reflexivity.
  - simpl. tauto.
  - simpl. lia.
Defined.

(** ** The end-of-list marker *)

(** C3 as stated fails: in the PictureWizard directory an unmatched id
    resolves to a marker whose expected type is [unsignedShort], not
    [undefined]. *)
Lemma sentinel_type_undefined_counterexample :
  ~ (forall (d : IfdId) (ti : list TagInfo) (tag : Z) (s : TagInfo),
       registry_for d = Some ti -> tag ∉ map tag_ ti -> resolve d tag = Some s ->
       typeId_ s = undefined /\ printFct_ s = Fct_printValue).
Proof.
  intros H.
  destruct (H samsungPwId tagInfoPw_ 0x0005
              (mkTagInfo 0xffff "(UnknownSamsungPictureWizardTag)" "(UnknownSamsungPictureWizardTag)"
                 "Unknown SamsungPictureWizard tag" samsungPwId makerTags unsignedShort 1
                 Fct_printValue)) as [Hty _].
  - reflexivity.
  - apply (bool_decide_unpack _). reflexivity.
  - reflexivity.
  - discriminate Hty.
Qed.

(** C3 (amended): an unmatched id resolves, in both directories, to a marker
    formatted by the raw-print formatter [printValue]; the marker of the
    top-level directory expects type [undefined] with any count, that of the
    PictureWizard directory type [unsignedShort] with count 1. *)
Theorem resolve_unknown_marker_fields (d : IfdId) (ti : list TagInfo) (tag : Z) :
  registry_for d = Some ti -> tag ∉ map tag_ ti ->
  exists s, resolve d tag = Some s /\ tag_ s = 0xffff /\ printFct_ s = Fct_printValue /\
    ((d = samsung2Id /\ typeId_ s = undefined /\ count_ s = -1) \/
     (d = samsungPwId /\ typeId_ s = unsignedShort /\ count_ s = 1)).
Proof.
  intros Hreg Hnot. unfold resolve. rewrite Hreg, scan_not_found by done.
  destruct (registry_for_cases d ti Hreg) as [[-> ->]|[-> ->]];
    eexists; (split; [reflexivity|]); simpl; naive_solver.
Qed.

Lemma resolve_unknown_marker_fields_witness :
  exists s, resolve samsungPwId 0x0100 = Some s /\ tag_ s = 0xffff /\
    printFct_ s = Fct_printValue /\
    ((samsungPwId = samsung2Id /\ typeId_ s = undefined /\ count_ s = -1) \/
     (samsungPwId = samsungPwId /\ typeId_ s = unsignedShort /\ count_ s = 1)).
Proof.
  apply (resolve_unknown_marker_fields samsungPwId tagInfoPw_ 0x0100).
  - reflexivity.
  - apply (bool_decide_unpack _). reflexivity.
Defined.

(** ** Shape of the tables *)

Lemma strictly_sorted_NoDup (l : list Z) : StronglySorted Z.lt l -> NoDup l.
Proof.
  induction 1 as [|a l _ IH Hall]; constructor; [|exact IH].
  intros Hin. rewrite Forall_forall in Hall.
  specialize (Hall a Hin). lia.
Qed.

(** C10: every entry of the top-level table is in directory [samsung2Id] with
    count -1; every entry of the PictureWizard table, its marker included, is
    in directory [samsungPwId] with type [unsignedShort] and count 1; in each
    table the ids strictly increase, hence are distinct. *)
Theorem tables_homogeneous_sorted :
  Forall (fun t => ifdId_ t = samsung2Id /\ count_ t = -1) tagInfo_ /\
  Forall (fun t => ifdId_ t = samsungPwId /\ typeId_ t = unsignedShort /\ count_ t = 1)
    tagInfoPw_ /\
  StronglySorted Z.lt (map tag_ tagInfo_) /\ NoDup (map tag_ tagInfo_) /\
  StronglySorted Z.lt (map tag_ tagInfoPw_) /\ NoDup (map tag_ tagInfoPw_).
Proof.
  assert (Hs1 : StronglySorted Z.lt (map tag_ tagInfo_)).
  { apply Sorted_StronglySorted; [intros x y z; lia|].
    simpl; repeat constructor. }
  assert (Hs2 : StronglySorted Z.lt (map tag_ tagInfoPw_)).
  { apply Sorted_StronglySorted; [intros x y z; lia|].
    simpl; repeat constructor. }
  split; [repeat constructor|].
  split; [repeat constructor|].
  split; [exact Hs1|]. split; [|split; [exact Hs2|]];
    apply strictly_sorted_NoDup; assumption.
Qed.

(** ** Formatters *)

Lemma append_assoc (s1 s2 s3 : string) : s1 +:+ (s2 +:+ s3) = (s1 +:+ s2) +:+ s3.
Proof.
  induction s1 as [|c s1 IH]; [reflexivity|].
  change (String c (s1 +:+ (s2 +:+ s3)) = String c ((s1 +:+ s2) +:+ s3)).
  by rewrite IH.
Qed.

Lemma pretty_digit_length (z : Z) : 0 <= z < 10 -> String.length (pretty z) = 1%nat.
Proof.
  intros Hz.
  assert (z = 0 \/ z = 1 \/ z = 2 \/ z = 3 \/ z = 4 \/ z = 5 \/ z = 6 \/ z = 7 \/
          z = 8 \/ z = 9) as Hc by lia.
  repeat destruct Hc as [->|Hc]; try reflexivity; subst; reflexivity.
Qed.

Lemma format_fixed1_nonneg (n : Z) : 0 <= n ->
  format_fixed1 n 10 = pretty (n / 10) +:+ "." +:+ pretty (n mod 10).
Proof.
  intros Hn. unfold format_fixed1, round_div.
  rewrite Z.div_mul, Z.mod_mul by lia. simpl.
  rewrite Z.abs_eq by lia.
  destruct (n <? 0) eqn:Hlt; [apply Z.ltb_lt in Hlt; lia|reflexivity].
Qed.

(** A 16-bit unsigned value holding [r]. *)
Definition ushort_value (r : Z) (raw : string) : Value :=
  mkValue unsignedShort 1 (fun _ => r) "" raw.
(** A 32-bit unsigned value holding [r]. *)
Definition ulong_value (r : Z) (raw : string) : Value :=
  mkValue unsignedLong 1 (fun _ => r) "" raw.

(** C4 as stated fails: a 16-bit unsigned value 550 of count 1 is another
    unsigned integer type than the [unsignedLong] the formatter expects, and
    is printed raw. *)
Lemma focal_length_ushort_counterexample :
  printFocalLength35 "" (ushort_value 550 "550") = "550" /\
  printFocalLength35 "" (ushort_value 550 "550") <> "55.0 mm".
Proof. split; [reflexivity|discriminate]. Qed.

(** The guard shared by the formatters of this file: a value of another type
    than the one expected takes the raw-print branch. *)
Lemma type_guard_mismatch (value : Value) (ty : TypeId) :
  typeId value <> ty ->
  negb (Nat.eqb (count value) 1) || bool_decide (typeId value <> ty) = true.
Proof. intros Ht. rewrite bool_decide_true by exact Ht. apply orb_true_r. Qed.

(** C4 (amended): on a value of type [unsignedLong] and count 1 with reading
    [r], [printFocalLength35] writes "Unknown" when [r] is 0 and otherwise
    [r / 10] with one decimal digit followed by " mm" (550 gives "55.0 mm");
    on a value of any other type (an [unsignedShort] included) it writes the
    value's raw rendering. *)
Theorem focal_length_ulong (os : ostream) (value : Value) :
  (typeId value = unsignedLong -> count value = 1%nat -> 0 <= toInt64 value 0 ->
   printFocalLength35 os value =
     os +:+ (if toInt64 value 0 =? 0 then "Unknown"
             else pretty (toInt64 value 0 / 10) +:+ "." +:+
                  pretty (toInt64 value 0 mod 10) +:+ " mm") /\
   String.length (pretty (toInt64 value 0 mod 10)) = 1%nat) /\
  (typeId value <> unsignedLong -> printFocalLength35 os value = os +:+ write_str value) /\
  printFocalLength35 "" (ulong_value 550 "550") = "55.0 mm".
Proof.
  split; [|split].
  - intros Hty Hcnt Hnn. split.
    + unfold printFocalLength35. rewrite Hty, Hcnt. simpl.
      destruct (toInt64 value 0 =? 0) eqn:H0; [reflexivity|].
      unfold out_str. rewrite format_fixed1_nonneg by exact Hnn.
      rewrite <- !append_assoc. reflexivity.
    + apply pretty_digit_length. apply Z.mod_pos_bound. lia.
  - intros Ht. unfold printFocalLength35. by rewrite type_guard_mismatch.
  - reflexivity.
Qed.

Lemma focal_length_ulong_witness :
  printFocalLength35 "" (ulong_value 0 "0") = "" +:+ "Unknown" /\
  printFocalLength35 "" (ushort_value 550 "550") = "" +:+ "550".
Proof.
  destruct (focal_length_ulong "" (ulong_value 0 "0")) as [H _].
  destruct (focal_length_ulong "" (ushort_value 550 "550")) as [_ [H' _]].
  split.
  - apply H; [reflexivity|reflexivity|simpl; lia].
  - apply H'. discriminate.
Defined.

(** C5 as stated fails: a 32-bit unsigned value 65535 of count 1 is another
    unsigned integer type than the [unsignedShort] the formatter expects, and
    is printed raw. *)
Lemma pw_color_ulong_counterexample :
  printPwColor "" (ulong_value 65535 "65535") = "65535" /\
  printPwColor "" (ulong_value 65535 "65535") <> "Neutral".
Proof. split; [reflexivity|discriminate]. Qed.

(** C5 (amended): on a value of type [unsignedShort] and count 1 with reading
    [r], [printPwColor] writes "Neutral" when [r] is 65535 and otherwise [r]
    in decimal (65535 gives "Neutral", 120 gives "120"); on a value of any
    other type (an [unsignedLong] included) it writes the value's raw
    rendering. *)
Theorem pw_color_ushort (os : ostream) (value : Value) :
  (typeId value = unsignedShort -> count value = 1%nat ->
   printPwColor os value =
     os +:+ (if toInt64 value 0 =? 65535 then "Neutral" else pretty (toInt64 value 0))) /\
  (typeId value <> unsignedShort -> printPwColor os value = os +:+ write_str value) /\
  printPwColor "" (ushort_value 65535 "65535") = "Neutral" /\
  printPwColor "" (ushort_value 120 "120") = "120".
Proof.
  split; [|split; [|split; reflexivity]].
  - intros Hty Hcnt. unfold printPwColor. rewrite Hty, Hcnt. simpl.
    by destruct (toInt64 value 0 =? 65535).
  - intros Ht. unfold printPwColor. by rewrite type_guard_mismatch.
Qed.

Lemma pw_color_ushort_witness :
  printPwColor "" (ushort_value 7 "7") = "" +:+ pretty 7 /\
  printPwColor "" (ulong_value 65535 "65535") = "" +:+ "65535".
Proof.
  destruct (pw_color_ushort "" (ushort_value 7 "7")) as [H _].
  destruct (pw_color_ushort "" (ulong_value 65535 "65535")) as [_ [H' _]].
  split.
  - apply H; reflexivity.
  - apply H'. discriminate.
Defined.

(** C6 as stated fails: a 32-bit unsigned value 6 of count 1 is another
    unsigned integer type than the [unsignedShort] the formatter expects, and
    is printed raw. *)
Lemma minus4_ulong_counterexample :
  printValueMinus4 "" (ulong_value 6 "6") = "6" /\
  printValueMinus4 "" (ulong_value 6 "6") <> "2".
Proof. split; [reflexivity|discriminate]. Qed.

(** C6 (amended): on a value of type [unsignedShort] (reading [r] in
    [0, 2^16)) and count 1, [printValueMinus4] writes [r - 4] computed in
    signed 64-bit arithmetic, which is the exact integer difference (6 gives
    "2", 0 gives "-4"); on a value of any other type (an [unsignedLong]
    included) it writes the value's raw rendering. *)
Theorem minus4_ushort (os : ostream) (value : Value) :
  (typeId value = unsignedShort -> count value = 1%nat ->
   0 <= toInt64 value 0 < 2 ^ 16 ->
   int64_sub (toInt64 value 0) 4 = toInt64 value 0 - 4 /\
   printValueMinus4 os value = os +:+ pretty (toInt64 value 0 - 4)) /\
  (typeId value <> unsignedShort -> printValueMinus4 os value = os +:+ write_str value) /\
  printValueMinus4 "" (ushort_value 6 "6") = "2" /\
  printValueMinus4 "" (ushort_value 0 "0") = "-4".
Proof.
  split; [|split; [|split; reflexivity]].
  - intros Hty Hcnt Hr.
    assert (Hsub : int64_sub (toInt64 value 0) 4 = toInt64 value 0 - 4).
    { unfold int64_sub, wrap_int64.
      rewrite Z.mod_small; [lia|]. split; lia. }
    split; [exact Hsub|].
    unfold printValueMinus4. rewrite Hty, Hcnt. simpl.
    unfold out_int64. by rewrite Hsub.
  - intros Ht. unfold printValueMinus4. by rewrite type_guard_mismatch.
Qed.

Lemma minus4_ushort_witness :
  printValueMinus4 "" (ushort_value 3 "3") = "" +:+ pretty (3 - 4) /\
  printValueMinus4 "" (ulong_value 6 "6") = "" +:+ "6".
Proof.
  destruct (minus4_ushort "" (ushort_value 3 "3")) as [H _].
  destruct (minus4_ushort "" (ulong_value 6 "6")) as [_ [H' _]].
  split.
  - apply H; [reflexivity|reflexivity|simpl; lia].
  - apply H'. discriminate.
Defined.

(** C7: each formatter of this file, given a value whose count is not 1 or
    whose type is not the one it expects, writes exactly the value's default
    rendering.  The formatters are total: they always write some text. *)
Theorem formatters_fallback_raw (os : ostream) (value : Value) :
  (count value <> 1%nat \/ typeId value <> signedRational ->
     printCameraTemperature os value = os +:+ write_str value) /\
  (count value <> 1%nat \/ typeId value <> unsignedLong ->
     printFocalLength35 os value = os +:+ write_str value) /\
  (count value <> 1%nat \/ typeId value <> unsignedShort ->
     printPwColor os value = os +:+ write_str value) /\
  (count value <> 1%nat \/ typeId value <> unsignedShort ->
     printValueMinus4 os value = os +:+ write_str value).
Proof.
  assert (Hguard : forall ty, count value <> 1%nat \/ typeId value <> ty ->
            negb (Nat.eqb (count value) 1) || bool_decide (typeId value <> ty) = true).
  { intros ty [Hc|Ht].
    - apply Nat.eqb_neq in Hc. by rewrite Hc.
    - rewrite bool_decide_true by exact Ht. apply orb_true_r. }
  repeat split; intros H; apply Hguard in H;
    [unfold printCameraTemperature | unfold printFocalLength35
    | unfold printPwColor | unfold printValueMinus4]; rewrite H; reflexivity.
Qed.

Lemma formatters_fallback_raw_witness :
  printFocalLength35 "" (mkValue unsignedLong 2 (fun _ => 550) "" "550 20") = "" +:+ "550 20".
Proof.
  apply (proj1 (proj2 (formatters_fallback_raw "" (mkValue unsignedLong 2 (fun _ => 550) "" "550 20")))).
  left. discriminate.
Defined.

(** ** The generic lookup-table formatter *)

Lemma find_details_In (td : list TagDetails) (d : TagDetails) :
  NoDup (map val_ td) -> In d td -> find_details td (val_ d) = Some d.
Proof.
  induction td as [|d' rest IH]; simpl; [contradiction|].
  intros Hnd Hin. apply NoDup_cons in Hnd as [Hnot Hnd].
  destruct Hin as [<-|Hin]; [by rewrite Z.eqb_refl|].
  destruct (val_ d' =? val_ d) eqn:He.
  - apply Z.eqb_eq in He. exfalso. apply Hnot. rewrite He.
    apply list_elem_of_In, in_map. exact Hin.
  - by apply IH.
Qed.

Lemma find_details_absent (td : list TagDetails) (x : Z) :
  (forall d, In d td -> val_ d <> x) -> find_details td x = None.
Proof.
  induction td as [|d rest IH]; simpl; intros Hall; [reflexivity|].
  rewrite (proj2 (Z.eqb_neq (val_ d) x)) by (apply Hall; auto).
  apply IH. intros d' Hin. apply Hall. auto.
Qed.

Lemma lookup_tables_codes_distinct (td : list TagDetails) :
  In td [samsung2LensType; samsung2ColorSpace; samsung2SmartRange; samsungPwMode] ->
  NoDup (map val_ td).
Proof.
  simpl. intros Hin. repeat destruct Hin as [<-|Hin]; try contradiction;
    apply (bool_decide_unpack _); vm_compute; reflexivity.
Qed.

(** C8: bound to one of the tables LensType, ColorSpace, SmartRange and
    PictureWizard Mode, the lookup-table formatter writes, for a value of
    count 1 and type [unsignedShort], the label of the table entry whose code
    is the reading, or the reading in decimal when no code matches; for any
    other count or type it writes the value's default rendering. *)
Theorem lookup_formatter (td : list TagDetails) (os : ostream) (value : Value) :
  In td [samsung2LensType; samsung2ColorSpace; samsung2SmartRange; samsungPwMode] ->
  (count value = 1%nat -> typeId value = unsignedShort ->
     (forall d, In d td -> val_ d = toInt64 value 0 ->
        printTag unsignedShort td os value = os +:+ label_ d) /\
     ((forall d, In d td -> val_ d <> toInt64 value 0) ->
        printTag unsignedShort td os value = os +:+ pretty (toInt64 value 0))) /\
  (count value <> 1%nat \/ typeId value <> unsignedShort ->
     printTag unsignedShort td os value = os +:+ write_str value).
Proof.
  intros Htd. split.
  - intros Hc Ht. unfold printTag. rewrite Hc, Ht. simpl. split.
    + intros d Hin Hv. rewrite <- Hv.
      by rewrite (find_details_In td d (lookup_tables_codes_distinct td Htd) Hin).
    + intros Hall. by rewrite find_details_absent.
  - intros Hg. unfold printTag.
    assert (Hb : negb (Nat.eqb (count value) 1) || bool_decide (typeId value <> unsignedShort) = true).
    { destruct Hg as [Hc|Ht].
      - apply Nat.eqb_neq in Hc. by rewrite Hc.
      - rewrite bool_decide_true by exact Ht. apply orb_true_r. }
    by rewrite Hb.
Qed.

Lemma lookup_formatter_witness :
  printTag unsignedShort samsung2LensType "" (ushort_value 20 "20") =
    "" +:+ "Samsung NX 50-150mm F2.8 S ED OIS".
Proof.
  apply (proj1 (proj1 (lookup_formatter samsung2LensType "" (ushort_value 20 "20")
                         ltac:(simpl; tauto)) eq_refl eq_refl)
           (mkTagDetails 20 "Samsung NX 50-150mm F2.8 S ED OIS")).
  - simpl. tauto.
  - reflexivity.
Defined.

(** ** Formatters only append to the stream *)

Ltac solve_append :=
  repeat match goal with
  | |- context [if ?b then _ else _] => destruct b
  | |- context [match ?m with _ => _ end] => destruct m
  end;
  unfold out_str, out_value, out_int64; rewrite <- ?append_assoc; reflexivity.

Lemma run_printFct_append (ext_text : ExtFct -> Value -> string) (f : PrintFct)
    (os : ostream) (value : Value) :
  run_printFct ext_text f os value = os +:+ run_printFct ext_text f "" value.
Proof.
  destruct f; simpl;
    [unfold printValue | unfold printTag | unfold printCameraTemperature
    | unfold printFocalLength35 | unfold printPwColor | unfold printValueMinus4
    | ]; solve_append.
Qed.

(** C9: invoking a descriptor's formatter on a value appends to the stream a
    text that depends only on the formatter and the value (not on what the
    stream already holds), so two invocations write the same text twice; the
    formatters of tags_int.cpp are taken as writing a text of the value. *)
Theorem formatter_deterministic (ext_text : ExtFct -> Value -> string) (f : PrintFct)
    (os : ostream) (value : Value) :
  let text := run_printFct ext_text f "" value in
  run_printFct ext_text f os value = os +:+ text /\
  run_printFct ext_text f (run_printFct ext_text f os value) value = (os +:+ text) +:+ text.
Proof.
  simpl. rewrite (run_printFct_append ext_text f (run_printFct ext_text f os value)).
  rewrite (run_printFct_append ext_text f os). split; reflexivity.
Qed.

(** * Further properties of the file *)

(** ** Strings as lists of characters *)

Lemma list_ascii_of_string_app (s1 s2 : string) :
  list_ascii_of_string (s1 +:+ s2) = (list_ascii_of_string s1 ++ list_ascii_of_string s2)%list.
Proof.
  induction s1 as [|c s1 IH]; [reflexivity|].
  change (c :: list_ascii_of_string (s1 +:+ s2) =
          c :: (list_ascii_of_string s1 ++ list_ascii_of_string s2)%list).
  by rewrite IH.
Qed.

Lemma list_ascii_of_string_inj (s1 s2 : string) :
  list_ascii_of_string s1 = list_ascii_of_string s2 -> s1 = s2.
Proof.
  intros H. rewrite <- (string_of_list_ascii_of_string s1), <- (string_of_list_ascii_of_string s2).
  by rewrite H.
Qed.

Lemma pretty_digit_char (z : Z) : 0 <= z < 10 -> exists c, pretty z = String c "".
Proof.
  intros Hz.
  assert (z = 0 \/ z = 1 \/ z = 2 \/ z = 3 \/ z = 4 \/ z = 5 \/ z = 6 \/ z = 7 \/
          z = 8 \/ z = 9) as Hc by lia.
  repeat destruct Hc as [->|Hc]; try (eexists; reflexivity); subst; eexists; reflexivity.
Qed.

(** The characters [pretty] writes for an integer. *)
Definition numeral_chars : list Ascii.ascii := list_ascii_of_string "-0123456789".

Lemma pretty_N_char_numeral (n : N) : pretty_N_char n ∈ numeral_chars.
Proof.
  apply list_elem_of_In. unfold pretty_N_char.
  repeat case_match; simpl; tauto.
Qed.

Lemma pretty_N_go_numeral (x : N) (s : string) :
  Forall (fun c => c ∈ numeral_chars) (list_ascii_of_string s) ->
  Forall (fun c => c ∈ numeral_chars) (list_ascii_of_string (pretty_N_go x s)).
Proof.
  revert s. induction (N.lt_wf_0 x) as [x _ IH]; intros s Hs.
  destruct (decide (x = 0%N)) as [->|Hx]; [by rewrite pretty_N_go_0|].
  rewrite pretty_N_go_step by lia. apply IH.
  - apply N.div_lt; lia.
  - simpl. constructor; [apply pretty_N_char_numeral|exact Hs].
Qed.

Lemma pretty_Z_numeral (z : Z) :
  Forall (fun c => c ∈ numeral_chars) (list_ascii_of_string (pretty z)).
Proof.
  assert (HN : forall n : N, Forall (fun c => c ∈ numeral_chars) (list_ascii_of_string (pretty n))).
  { intros n. unfold pretty, pretty_N. case_decide.
    - simpl. constructor; [apply list_elem_of_In; simpl; tauto|constructor].
    - apply pretty_N_go_numeral. constructor. }
  destruct z as [|p|p]; [simpl; constructor; [apply list_elem_of_In; simpl; tauto|constructor]
    | apply (HN (Npos p)) |].
  change (Forall (fun c => c ∈ numeral_chars) ("-"%char :: list_ascii_of_string (pretty (Npos p)))).
  constructor; [apply list_elem_of_In; simpl; tauto|apply HN].
Qed.

(** ** Formatter outputs determine the reading *)

Lemma Neutral_not_numeral (z : Z) : pretty z <> "Neutral".
Proof.
  intros H. pose proof (pretty_Z_numeral z) as Hf. rewrite H in Hf.
  apply Forall_inv in Hf. apply (bool_decide_pack _) in Hf. vm_compute in Hf. destruct Hf.
Qed.

Lemma focal_text_not_Unknown (s : string) : s +:+ " mm" <> "Unknown".
Proof.
  intros H. apply (f_equal list_ascii_of_string) in H.
  rewrite list_ascii_of_string_app in H.
  apply (f_equal last) in H.
  change (list_ascii_of_string " mm") with ([" "%char; "m"%char] ++ ["m"%char])%list in H.
  rewrite app_assoc, last_snoc in H. discriminate.
Qed.

Lemma focal_text_inj (a b : Z) : 0 <= a -> 0 <= b ->
  pretty (a / 10) +:+ "." +:+ pretty (a mod 10) +:+ " mm" =
  pretty (b / 10) +:+ "." +:+ pretty (b mod 10) +:+ " mm" -> a = b.
Proof.
  intros Ha Hb H.
  destruct (pretty_digit_char (a mod 10)) as [ca Hca]; [apply Z.mod_pos_bound; lia|].
  destruct (pretty_digit_char (b mod 10)) as [cb Hcb]; [apply Z.mod_pos_bound; lia|].
  apply (f_equal list_ascii_of_string) in H.
  rewrite !list_ascii_of_string_app, Hca, Hcb in H.
  change (list_ascii_of_string (String ca "")) with [ca] in H.
  change (list_ascii_of_string (String cb "")) with [cb] in H.
  change (list_ascii_of_string ".") with ["."%char] in H.
  rewrite !app_assoc in H. apply app_inv_tail in H.
  apply app_inj_tail in H as [H Hc]. apply app_inj_tail in H as [H _].
  apply list_ascii_of_string_inj, (inj pretty) in H.
  assert (Hm : pretty (a mod 10) = pretty (b mod 10)) by (by rewrite Hca, Hcb, Hc).
  apply (inj pretty) in Hm.
  rewrite (Z.div_mod a 10), (Z.div_mod b 10) by lia. lia.
Qed.

Lemma printFocalLength35_ulong_text (os : ostream) (value : Value) :
  typeId value = unsignedLong -> count value = 1%nat -> 0 <= toInt64 value 0 ->
  printFocalLength35 os value =
    os +:+ (if toInt64 value 0 =? 0 then "Unknown"
            else pretty (toInt64 value 0 / 10) +:+ "." +:+
                 pretty (toInt64 value 0 mod 10) +:+ " mm").
Proof.
  intros Hty Hcnt Hnn. unfold printFocalLength35. rewrite Hty, Hcnt. simpl.
  destruct (toInt64 value 0 =? 0); [reflexivity|].
  unfold out_str. rewrite format_fixed1_nonneg by exact Hnn.
  rewrite <- !append_assoc. reflexivity.
Qed.

(** [printFocalLength35] loses no information on the values it interprets:
    two [unsignedLong] values of count 1 with nonnegative readings that print
    the same text have the same reading. *)
Theorem focal_length_text_determines_reading (os : ostream) (v w : Value) :
  typeId v = unsignedLong -> count v = 1%nat -> 0 <= toInt64 v 0 ->
  typeId w = unsignedLong -> count w = 1%nat -> 0 <= toInt64 w 0 ->
  printFocalLength35 os v = printFocalLength35 os w -> toInt64 v 0 = toInt64 w 0.
Proof.
  intros Htv Hcv Hnv Htw Hcw Hnw H.
  rewrite (printFocalLength35_ulong_text os v), (printFocalLength35_ulong_text os w)
    in H by assumption.
  apply (inj (String.append os)) in H.
  destruct (toInt64 v 0 =? 0) eqn:Hv, (toInt64 w 0 =? 0) eqn:Hw;
    apply Z.eqb_eq in Hv || apply Z.eqb_neq in Hv;
    apply Z.eqb_eq in Hw || apply Z.eqb_neq in Hw.
  - lia.
  - rewrite !append_assoc in H. symmetry in H. by apply focal_text_not_Unknown in H.
  - rewrite !append_assoc in H. by apply focal_text_not_Unknown in H.
  - by apply focal_text_inj.
Qed.

Lemma focal_length_text_determines_reading_witness :
  toInt64 (ulong_value 551 "551") 0 = toInt64 (ulong_value 551 "x") 0.
Proof.
  apply (focal_length_text_determines_reading "" (ulong_value 551 "551") (ulong_value 551 "x"));
    try reflexivity; simpl; lia.
Defined.

(** [printPwColor] loses no information on the values it interprets: two
    [unsignedShort] values of count 1 that print the same text have the same
    reading; in particular only the reading 65535 prints "Neutral". *)
Theorem pw_color_text_determines_reading (os : ostream) (v w : Value) :
  typeId v = unsignedShort -> count v = 1%nat ->
  typeId w = unsignedShort -> count w = 1%nat ->
  printPwColor os v = printPwColor os w -> toInt64 v 0 = toInt64 w 0.
Proof.
  intros Htv Hcv Htw Hcw H. unfold printPwColor in H.
  rewrite Htv, Hcv, Htw, Hcw in H. simpl in H.
  unfold out_str, out_int64, tr_ in H.
  destruct (toInt64 v 0 =? 65535) eqn:Hv, (toInt64 w 0 =? 65535) eqn:Hw;
    apply Z.eqb_eq in Hv || apply Z.eqb_neq in Hv;
    apply Z.eqb_eq in Hw || apply Z.eqb_neq in Hw;
    apply (inj (String.append os)) in H.
  - lia.
  - symmetry in H. by apply Neutral_not_numeral in H.
  - by apply Neutral_not_numeral in H.
  - by apply (inj pretty) in H.
Qed.

Lemma pw_color_text_determines_reading_witness :
  toInt64 (ushort_value 120 "120") 0 = toInt64 (ushort_value 120 "y") 0.
Proof.
  apply (pw_color_text_determines_reading "" (ushort_value 120 "120") (ushort_value 120 "y"));
    reflexivity.
Defined.

(** [printValueMinus4] loses no information on the values it interprets: two
    [unsignedShort] values of count 1 (readings in [0, 2^16)) that print the
    same text have the same reading. *)
Theorem minus4_text_determines_reading (os : ostream) (v w : Value) :
  typeId v = unsignedShort -> count v = 1%nat -> 0 <= toInt64 v 0 < 2 ^ 16 ->
  typeId w = unsignedShort -> count w = 1%nat -> 0 <= toInt64 w 0 < 2 ^ 16 ->
  printValueMinus4 os v = printValueMinus4 os w -> toInt64 v 0 = toInt64 w 0.
Proof.
  intros Htv Hcv Hrv Htw Hcw Hrw H. unfold printValueMinus4 in H.
  rewrite Htv, Hcv, Htw, Hcw in H. simpl in H.
  unfold out_int64 in H. apply (inj (String.append os)), (inj pretty) in H.
  unfold int64_sub, wrap_int64 in H.
  rewrite !Z.mod_small in H by lia. lia.
Qed.

Lemma minus4_text_determines_reading_witness :
  toInt64 (ushort_value 2 "2") 0 = toInt64 (ushort_value 2 "z") 0.
Proof.
  apply (minus4_text_determines_reading "" (ushort_value 2 "2") (ushort_value 2 "z"));
    try reflexivity; simpl; lia.
Defined.

(** ** Descriptors and the formatters they bind *)

(** Each descriptor bound to one of the formatters of this file declares the
    type that formatter checks: a value decoded with the declared type and
    count 1 is printed from its readings, never from its raw rendering (two
    such values with the same readings print the same text). *)
Theorem declared_type_selects_interpretation (ext_text : ExtFct -> Value -> string)
    (t : TagInfo) (os : ostream) (v w : Value) :
  In t (tagInfo_ ++ tagInfoPw_) ->
  In (printFct_ t) [Fct_printCameraTemperature; Fct_printFocalLength35;
                    Fct_printPwColor; Fct_printValueMinus4] ->
  typeId v = typeId_ t -> count v = 1%nat ->
  typeId w = typeId_ t -> count w = 1%nat ->
  toInt64 v 0 = toInt64 w 0 -> toFloat_str v = toFloat_str w ->
  run_printFct ext_text (printFct_ t) os v = run_printFct ext_text (printFct_ t) os w.
Proof.
  intros Hin Hf Htv Hcv Htw Hcw Hi Hfl.
  simpl in Hin. repeat destruct Hin as [<-|Hin]; try contradiction;
    simpl in Hf; try (intuition discriminate); simpl in Htv, Htw; cbn [run_printFct printFct_].
  all: unfold printCameraTemperature, printFocalLength35, printPwColor, printValueMinus4;
    rewrite Htv, Hcv, Htw, Hcw; simpl; rewrite ?Hi, ?Hfl; reflexivity.
Qed.

Lemma declared_type_selects_interpretation_witness :
  run_printFct (fun _ _ => "") Fct_printFocalLength35 "" (ulong_value 550 "550") =
  run_printFct (fun _ _ => "") Fct_printFocalLength35 "" (ulong_value 550 "0x226").
Proof.
  apply (declared_type_selects_interpretation (fun _ _ => "")
    (mkTagInfo 0xa01a "FocalLengthIn35mmFormat" "Focal Length In 35mm Format"
       "Focal length in 35mm format" samsung2Id makerTags unsignedLong (-1) Fct_printFocalLength35)
    "" (ulong_value 550 "550") (ulong_value 550 "0x226")).
  - apply in_or_app. left. simpl. tauto.
  - simpl. tauto.
  - reflexivity.
  - reflexivity.
  - reflexivity.
  - reflexivity.
  - reflexivity.
  - reflexivity.
Defined.

(** ** Shape of the lookup tables and of the tag names *)

(** In each lookup table (LensType, ColorSpace, SmartRange, PictureWizard
    Mode) the codes strictly increase and the labels are pairwise distinct,
    so a label printed by the lookup formatter names exactly one code. *)
Theorem lookup_tables_sorted_labels_distinct :
  Forall (fun td => StronglySorted Z.lt (map val_ td) /\ NoDup (map label_ td))
    [samsung2LensType; samsung2ColorSpace; samsung2SmartRange; samsungPwMode].
Proof.
  repeat constructor; try (apply Sorted_StronglySorted; [intros x y z; lia|];
    simpl; repeat constructor);
    apply (bool_decide_unpack _); vm_compute; reflexivity.
Qed.

(** Within each tag table the tag names (the last component of the Exif keys
    of the Samsung2 and SamsungPictureWizard groups) are pairwise distinct,
    and every entry belongs to the section [makerTags]. *)
Theorem tag_names_distinct :
  NoDup (map name_ tagInfo_) /\ NoDup (map name_ tagInfoPw_) /\
  Forall (fun t => sectionId_ t = makerTags) (tagInfo_ ++ tagInfoPw_).
Proof.
  split; [|split]; [apply (bool_decide_unpack _); vm_compute; reflexivity
  |apply (bool_decide_unpack _); vm_compute; reflexivity|repeat constructor].
Qed.
